(** * eksctl: [create iamserviceaccount]

    A shallow embedding of [pkg/ctl/create/iamserviceaccount.go]:
    the command setup ([createIAMServiceAccountCmdWithRunFunc]), the flag
    bindings, and the orchestrator ([doCreateIAMServiceAccount]), which is
    modelled as a state-passing program over its external collaborators
    that records every collaborator call and every [logger.Warning] in a
    trace. *)

From stdpp Require Import base strings list gmap sorting.
From Stdlib Require Import ZArith.

(** ** Go values *)

(** A Go [error]: [None] is [nil], [Some msg] an error whose text is [msg]. *)
Abbreviation error := (option string).

(** [context.Context]: [Background] is the root context, never cancelled and
    without deadline; the other constructors are the contexts derived from a
    parent that carry a cancellation or deadline signal. *)
Inductive Context : Type :=
| Background
| WithCancel (parent : Context)
| WithDeadline (parent : Context) (deadline : Z).

Fixpoint Context_eqb (a b : Context) : bool :=
  match a, b with
  | Background, Background => true
  | WithCancel p, WithCancel q => Context_eqb p q
  | WithDeadline p d, WithDeadline q e => Context_eqb p q && Z.eqb d e
  | _, _ => false
  end.

(** [derives_from c caller]: [c] is [caller] or was derived from it, so a
    cancellation or deadline of [caller] reaches [c]. *)
Fixpoint derives_from (c caller : Context) : bool :=
  Context_eqb c caller ||
  match c with
  | Background => false
  | WithCancel p | WithDeadline p _ => derives_from p caller
  end.

(** Types declared elsewhere in the repository or in libraries, of which
    this file only passes values around. *)
Class Externals : Type := {
  ClusterMetaRest : Type;          (* fields of ClusterMeta other than Name, Region *)
  ClusterIAMRest : Type;           (* fields of ClusterIAM not used here *)
  ClusterConfigRest : Type;        (* fields of ClusterConfig other than Metadata, IAM *)
  CmdRest : Type;                  (* Include, Exclude, ProviderConfig, ClusterConfigFile *)
  World : Type;                    (* the cluster, AWS: whatever collaborators read and change *)
  IAMServiceAccountFilter : Type;  (* filter.IAMServiceAccountFilter *)
  ClusterProvider : Type;
  ClientSet : Type;
  OpenIDConnectManager : Type;
  StackManager : Type
}.

(** ** Data model (package api, as far as this file uses it) *)

(** [api.ClusterIAMServiceAccount]; a [*bool] is [None] for nil and
    [Some b] for a pointer to a cell that holds [b]. *)
Record ClusterIAMServiceAccount : Type := {
  Name : string;
  Namespace : string;
  AttachPolicyARNs : list string;
  AttachRoleARN : string;
  RoleName : string;
  RoleOnly : option bool;
  Tags : gmap string string
}.

(** How a statement ends: control goes on with a value, or the function
    returns an error value (possibly nil). *)
Inductive Control (A : Type) : Type :=
| Proceed (a : A)
| ReturnErr (e : error).
Arguments Proceed {A} a.
Arguments ReturnErr {A} e.

Section DataModel.
Context `{Externals}.

Record ClusterMeta : Type := {
  meta_Name : string;
  meta_Region : string;
  meta_rest : ClusterMetaRest
}.

Record ClusterIAM : Type := {
  WithOIDC : option bool;
  ServiceAccounts : list ClusterIAMServiceAccount;
  OIDCThumbprint : option string;
  iam_rest : ClusterIAMRest
}.

Record ClusterConfig : Type := {
  Metadata : ClusterMeta;
  IAM : ClusterIAM;
  cfg_rest : ClusterConfigRest
}.

(** [cmdutils.Cmd], the fields this file reads or writes. *)
Record Cmd : Type := {
  cmd_ClusterConfig : ClusterConfig;
  NameArg : string;
  Plan : bool;
  cmd_rest : CmdRest
}.

Definition set_OIDCThumbprint (p : option string) (cfg : ClusterConfig) : ClusterConfig :=
  {| Metadata := Metadata cfg;
     IAM := {| WithOIDC := WithOIDC (IAM cfg);
               ServiceAccounts := ServiceAccounts (IAM cfg);
               OIDCThumbprint := p;
               iam_rest := iam_rest (IAM cfg) |};
     cfg_rest := cfg_rest cfg |}.

Definition set_ClusterConfig (cfg : ClusterConfig) (cmd : Cmd) : Cmd :=
  {| cmd_ClusterConfig := cfg; NameArg := NameArg cmd;
     Plan := Plan cmd; cmd_rest := cmd_rest cmd |}.

(** ** The orchestrator's collaborators and its trace *)

(** One entry per collaborator call, with the arguments and results the
    claims speak about, and one per [logger.Warning]. *)
Inductive Event : Type :=
| Load_called (err : error)
| NewProviderForExistingCluster_called (ctx : Context) (err : error)
| CanOperate_called (cfg : ClusterConfig) (ok : bool) (err : error)
| NewStdClientSet_called (err : error)
| NewOpenIDConnectManager_called (ctx : Context) (err : error)
| CheckProviderExists_called (ctx : Context) (providerExists : bool) (err : error)
| Warning_logged (format : string) (args : list string)
| NewStackManager_called
| SetExcludeExistingFilter_called (ctx : Context)
    (serviceAccounts : list ClusterIAMServiceAccount) (overrideExisting : bool) (err : error)
| FilterMatching_called (serviceAccounts filtered : list ClusterIAMServiceAccount)
| LogInfo_called (serviceAccounts : list ClusterIAMServiceAccount)
| LogObj_called (cfg : ClusterConfig) (err : error)
| CreateIAMServiceAccount_called (clusterName : string)
    (serviceAccounts : list ClusterIAMServiceAccount) (plan : bool) (err : error).

(** The functions and methods [doCreateIAMServiceAccount] calls. Each may
    read and change the [World]; a Go result [(v, err)] is a pair. *)
Record Collaborators : Type := {
  NewIAMServiceAccountFilter : IAMServiceAccountFilter;
  Load : Cmd → IAMServiceAccountFilter → World →
         (error * Cmd * IAMServiceAccountFilter) * World;
  NewProviderForExistingCluster : Cmd → Context → World → (ClusterProvider * error) * World;
  CanOperate : ClusterProvider → ClusterConfig → World → (bool * error) * World;
  NewStdClientSet : ClusterProvider → ClusterConfig → World → (ClientSet * error) * World;
  NewOpenIDConnectManager :
    ClusterProvider → Context → ClusterConfig → World → (OpenIDConnectManager * error) * World;
  CheckProviderExists : OpenIDConnectManager → Context → World → (bool * error) * World;
  NewStackManager : ClusterProvider → ClusterConfig → World → StackManager * World;
  SetExcludeExistingFilter :
    IAMServiceAccountFilter → Context → StackManager → ClientSet →
    list ClusterIAMServiceAccount → bool → World → (error * IAMServiceAccountFilter) * World;
  FilterMatching :
    IAMServiceAccountFilter → list ClusterIAMServiceAccount → World →
    list ClusterIAMServiceAccount * World;
  LogInfo : IAMServiceAccountFilter → list ClusterIAMServiceAccount → World → unit * World;
  LogObj : ClusterConfig → World → error * World;
  CreateIAMServiceAccount :
    string → StackManager → OpenIDConnectManager → ClientSet →
    list ClusterIAMServiceAccount → bool → World → error * World
}.

(** ** A small monad: world state, trace, early [return] *)

Definition Run (A : Type) : Type := World → World * list Event * Control A.

Definition ret {A} (a : A) : Run A := λ w, (w, [], Proceed a).

Definition bind {A B} (m : Run A) (k : A → Run B) : Run B :=
  λ w, match m w with
       | (w1, t1, Proceed a) =>
           match k a w1 with (w2, t2, c) => (w2, t1 ++ t2, c) end
       | (w1, t1, ReturnErr e) => (w1, t1, ReturnErr e)
       end.

(** Go's [return err]. *)
Definition return_ {A} (e : error) : Run A := λ w, (w, [], ReturnErr e).

(** Call a collaborator and record the call. *)
Definition call {R} (f : World → R * World) (ev : R → Event) : Run R :=
  λ w, match f w with (r, w') => (w', [ev r], Proceed r) end.

(** [logger.Warning(format, args...)]. *)
Definition Warning (format : string) (args : list string) : Run unit :=
  λ w, (w, [Warning_logged format args], Proceed tt).

#[export] Instance Run_ret : MRet Run := @ret.
#[export] Instance Run_bind : MBind Run := λ A B k m, bind m k.

End DataModel.

(** ** Messages *)

Definition msg_noOIDCProvider : string :=
  "no IAM OIDC provider associated with cluster, try 'eksctl utils associate-iam-oidc-provider --region=%s --cluster=%s'".
Definition err_noOIDCProvider : string :=
  "unable to create iamserviceaccount(s) without IAM OIDC provider enabled".
Definition msg_roleOnly : string :=
  "serviceaccounts in Kubernetes will not be created or modified, since the option --role-only is used".
Definition msg_overrideNoEffect : string :=
  "when option --role-only is used passing --override-existing-serviceaccounts has no effect".
Definition msg_override : string :=
  "metadata of serviceaccounts that exist in Kubernetes will be updated, as --override-existing-serviceaccounts was set".
Definition msg_default : string :=
  "serviceaccounts that exist in Kubernetes will be excluded, use --override-existing-serviceaccounts to override".

Section Orchestrator.
Context `{Externals} (C : Collaborators).

(** Lines 85-87: [if oIDCThumbprint != empty { cfg.IAM.OIDCThumbprint = &oIDCThumbprint }]. *)
Definition applyOIDCThumbprint (oIDCThumbprint : string) (cfg : ClusterConfig) : ClusterConfig :=
  if decide (oIDCThumbprint ≠ EmptyString)
  then set_OIDCThumbprint (Some oIDCThumbprint) cfg
  else cfg.

(** Lines 129-138: the warnings of the mode. *)
Definition logMode (overrideExistingServiceAccounts roleOnly : bool) : Run unit :=
  if roleOnly then
    Warning msg_roleOnly [] ;;
    if overrideExistingServiceAccounts
    then Warning msg_overrideNoEffect []
    else ret tt
  else if overrideExistingServiceAccounts then
    Warning msg_override []
  else
    Warning msg_default [].

(** The body of [doCreateIAMServiceAccount]; [oIDCThumbprint] is the
    package-level variable. *)
Definition doCreateIAMServiceAccount_body (oIDCThumbprint : string)
    (cmd : Cmd) (overrideExistingServiceAccounts roleOnly : bool) : Run error :=
  let saFilter := NewIAMServiceAccountFilter C in
  '(err, cmd, saFilter) ← call (Load C cmd saFilter) (λ r, Load_called r.1.1);
  if err is Some _ then return_ err else
  let meta := Metadata (cmd_ClusterConfig cmd) in
  let cfg := applyOIDCThumbprint oIDCThumbprint (cmd_ClusterConfig cmd) in
  let cmd := set_ClusterConfig cfg cmd in
  let ctx := Background in
  '(ctl, err) ← call (NewProviderForExistingCluster C cmd ctx)
                     (λ r, NewProviderForExistingCluster_called ctx r.2);
  if err is Some _ then return_ err else
  '(ok, err) ← call (CanOperate C ctl cfg) (λ r, CanOperate_called cfg r.1 r.2);
  if negb ok then return_ err else
  '(clientSet, err) ← call (NewStdClientSet C ctl cfg) (λ r, NewStdClientSet_called r.2);
  if err is Some _ then return_ err else
  '(oidc, err) ← call (NewOpenIDConnectManager C ctl ctx cfg)
                      (λ r, NewOpenIDConnectManager_called ctx r.2);
  if err is Some _ then return_ err else
  '(providerExists, err) ← call (CheckProviderExists C oidc ctx)
                                (λ r, CheckProviderExists_called ctx r.1 r.2);
  if err is Some _ then return_ err else
  if negb providerExists then
    Warning msg_noOIDCProvider [meta_Region meta; meta_Name meta] ;;
    return_ (Some err_noOIDCProvider)
  else
  stackManager ← call (NewStackManager C ctl cfg) (λ _, NewStackManager_called);
  '(err, saFilter) ←
     call (SetExcludeExistingFilter C saFilter ctx stackManager clientSet
             (ServiceAccounts (IAM cfg)) overrideExistingServiceAccounts)
          (λ r, SetExcludeExistingFilter_called ctx (ServiceAccounts (IAM cfg))
                  overrideExistingServiceAccounts r.1);
  if err is Some _ then return_ err else
  filteredServiceAccounts ←
     call (FilterMatching C saFilter (ServiceAccounts (IAM cfg)))
          (λ r, FilterMatching_called (ServiceAccounts (IAM cfg)) r);
  call (LogInfo C saFilter (ServiceAccounts (IAM cfg)))
       (λ _, LogInfo_called (ServiceAccounts (IAM cfg))) ;;
  logMode overrideExistingServiceAccounts roleOnly ;;
  err ← call (LogObj C cfg) (λ r, LogObj_called cfg r);
  if err is Some _ then return_ err else
  err ← call (CreateIAMServiceAccount C (meta_Name (Metadata cfg)) stackManager oidc clientSet
                filteredServiceAccounts (Plan cmd))
             (λ r, CreateIAMServiceAccount_called (meta_Name (Metadata cfg))
                     filteredServiceAccounts (Plan cmd) r);
  return_ err.

(** [doCreateIAMServiceAccount]: the final world, the trace and the
    returned error. *)
Definition doCreateIAMServiceAccount (oIDCThumbprint : string)
    (cmd : Cmd) (overrideExistingServiceAccounts roleOnly : bool)
    (w : World) : World * list Event * error :=
  match doCreateIAMServiceAccount_body oIDCThumbprint cmd
          overrideExistingServiceAccounts roleOnly w with
  | (w', tr, Proceed e) => (w', tr, e)
  | (w', tr, ReturnErr e) => (w', tr, e)
  end.

Definition trace_of (r : World * list Event * error) : list Event := r.1.2.
Definition result_of (r : World * list Event * error) : error := r.2.

End Orchestrator.

(** ** Command setup and flags *)

(** A parsed flag value (pflag converts the command-line text). *)
Inductive FlagValue : Type :=
| VString (s : string)
| VBool (b : bool)
| VStringSlice (l : list string)
| VStringToString (m : gmap string string).

(** [*cobra.Command] as handed to [RunE]: it carries the context of the
    caller ([cmd.Context()]). *)
Record CobraCommand : Type := { cobra_Context : Context }.

Section Setup.
Context `{Externals}.

(** What the helpers of package cmdutils get a pointer to: [cfg.Metadata]
    ([AddClusterFlag]), and the fields of [cmd] other than its
    [ClusterConfig] and [NameArg]. *)
Record HelperView : Type := {
  hv_Metadata : ClusterMeta;
  hv_Plan : bool;
  hv_rest : CmdRest
}.

(** The cells that command setup allocates and that flags are bound to.
    [sa_*] are the fields of the object behind [serviceAccount]; its
    [RoleOnly] field is the pointer [roleOnly], so the cell [roleOnly] is
    read through it. *)
Record Vars : Type := {
  sa_Name : string;
  sa_Namespace : string;
  sa_AttachPolicyARNs : list string;
  sa_AttachRoleARN : string;
  sa_RoleName : string;
  sa_Tags : gmap string string;
  roleOnly : bool;
  overrideExistingServiceAccounts : bool;
  oIDCThumbprint : string;
  helperView : HelperView
}.

(** The object [serviceAccount] points to, as it is when read. *)
Definition serviceAccount (v : Vars) : ClusterIAMServiceAccount :=
  {| Name := sa_Name v; Namespace := sa_Namespace v;
     AttachPolicyARNs := sa_AttachPolicyARNs v; AttachRoleARN := sa_AttachRoleARN v;
     RoleName := sa_RoleName v; RoleOnly := Some (roleOnly v); Tags := sa_Tags v |}.

(** The variable a flag writes to. *)
Inductive Target : Type :=
| serviceAccount_Name
| serviceAccount_Namespace
| serviceAccount_AttachPolicyARNs
| serviceAccount_AttachRoleARN
| serviceAccount_RoleName
| roleOnly_cell
| oIDCThumbprint_var
| serviceAccount_Tags
| overrideExistingServiceAccounts_var
| helper_field (set : FlagValue → HelperView → option HelperView).

Record Flag : Type := {
  flag_name : string;
  flag_default : FlagValue;
  flag_usage : string;
  flag_target : Target
}.

(** Storing a value of the wrong kind is pflag's invalid-argument error. *)
Definition assign (t : Target) (x : FlagValue) (v : Vars) : option Vars :=
  let '{| sa_Name := n; sa_Namespace := ns; sa_AttachPolicyARNs := ps;
          sa_AttachRoleARN := ra; sa_RoleName := rn; sa_Tags := tg; roleOnly := ro;
          overrideExistingServiceAccounts := ov; oIDCThumbprint := th;
          helperView := hv |} := v in
  let mk n ns ps ra rn tg ro ov th hv :=
    {| sa_Name := n; sa_Namespace := ns; sa_AttachPolicyARNs := ps;
       sa_AttachRoleARN := ra; sa_RoleName := rn; sa_Tags := tg; roleOnly := ro;
       overrideExistingServiceAccounts := ov; oIDCThumbprint := th;
       helperView := hv |} in
  match t, x with
  | serviceAccount_Name, VString s => Some (mk s ns ps ra rn tg ro ov th hv)
  | serviceAccount_Namespace, VString s => Some (mk n s ps ra rn tg ro ov th hv)
  | serviceAccount_AttachPolicyARNs, VStringSlice l => Some (mk n ns l ra rn tg ro ov th hv)
  | serviceAccount_AttachRoleARN, VString s => Some (mk n ns ps s rn tg ro ov th hv)
  | serviceAccount_RoleName, VString s => Some (mk n ns ps ra s tg ro ov th hv)
  | roleOnly_cell, VBool b => Some (mk n ns ps ra rn tg b ov th hv)
  | oIDCThumbprint_var, VString s => Some (mk n ns ps ra rn tg ro ov s hv)
  | serviceAccount_Tags, VStringToString m => Some (mk n ns ps ra rn m ro ov th hv)
  | overrideExistingServiceAccounts_var, VBool b => Some (mk n ns ps ra rn tg ro b th hv)
  | helper_field set, x => hv' ← set x hv; Some (mk n ns ps ra rn tg ro ov th hv')
  | _, _ => None
  end.

(** [fs.StringVar(p, name, value, usage)] and its siblings store the
    default in the variable when the flag is defined. *)
Definition define (f : Flag) (v : Vars) : Vars :=
  default v (assign (flag_target f) (flag_default f) v).

Definition defineAll (fs : list Flag) (v : Vars) : Vars := foldl (λ v f, define f v) v fs.

(** Parsing: every defined flag that the command line gives a value to
    stores it; [supplied] maps the names given on the command line to their
    values. *)
Fixpoint parseFlags (fs : list Flag) (supplied : gmap string FlagValue) (v : Vars)
  : option Vars :=
  match fs with
  | [] => Some v
  | f :: fs =>
      match supplied !! flag_name f with
      | None => parseFlags fs supplied v
      | Some x => v' ← assign (flag_target f) x v; parseFlags fs supplied v'
      end
  end.

(** A flag defined by a helper of package cmdutils: it writes through the
    pointers the helper was given, so inside [HelperView]. *)
Record HelperFlag : Type := {
  hf_name : string;
  hf_default : FlagValue;
  hf_usage : string;
  hf_set : FlagValue → HelperView → option HelperView
}.

Definition of_helper (f : HelperFlag) : Flag :=
  {| flag_name := hf_name f; flag_default := hf_default f;
     flag_usage := hf_usage f; flag_target := helper_field (hf_set f) |}.

(** The parts of packages cmdutils and api used by command setup. *)
Record Helpers : Type := {
  NewClusterConfig : ClusterConfig;
  GetNameArg : list string → string;
  AddClusterFlag : list HelperFlag;
  AddIAMServiceAccountFilterFlags : list HelperFlag;
  AddApproveFlag : list HelperFlag;
  AddRegionFlag : list HelperFlag;
  AddConfigFileFlag : list HelperFlag;
  AddTimeoutFlag : list HelperFlag;
  AddCommonFlagsForAWS : list HelperFlag
}.

(** The flags defined on lines 53-63, in order. *)
Definition ownFlags : list Flag :=
  [ {| flag_name := "name"; flag_default := VString EmptyString;
       flag_usage := "name of the iamserviceaccount to create";
       flag_target := serviceAccount_Name |};
    {| flag_name := "namespace"; flag_default := VString "default";
       flag_usage := "namespace where to create the iamserviceaccount";
       flag_target := serviceAccount_Namespace |};
    {| flag_name := "attach-policy-arn"; flag_default := VStringSlice [];
       flag_usage := "ARN of the policy where to create the iamserviceaccount";
       flag_target := serviceAccount_AttachPolicyARNs |};
    {| flag_name := "attach-role-arn"; flag_default := VString EmptyString;
       flag_usage := "ARN of the role to attach to the iamserviceaccount";
       flag_target := serviceAccount_AttachRoleARN |};
    {| flag_name := "role-name"; flag_default := VString EmptyString;
       flag_usage := "Set a custom name for the created role";
       flag_target := serviceAccount_RoleName |};
    {| flag_name := "role-only"; flag_default := VBool false;
       flag_usage := "disable service account creation, only the role will be created";
       flag_target := roleOnly_cell |};
    {| flag_name := "oidc-thumbprint"; flag_default := VString EmptyString;
       flag_usage := "OIDC Thumbprint";
       flag_target := oIDCThumbprint_var |};
    {| flag_name := "tags"; flag_default := VStringToString ∅;
       flag_usage := "Used to tag the IAM role";
       flag_target := serviceAccount_Tags |};
    {| flag_name := "override-existing-serviceaccounts"; flag_default := VBool false;
       flag_usage := "create IAM roles for existing serviceaccounts and update the serviceaccount";
       flag_target := overrideExistingServiceAccounts_var |} ].

(** All flags of the command, in the order of their definition. *)
Definition flagSet (h : Helpers) : list Flag :=
  (of_helper <$> AddClusterFlag h) ++ ownFlags ++
  (of_helper <$> (AddIAMServiceAccountFilterFlags h ++ AddApproveFlag h ++
                  AddRegionFlag h ++ AddConfigFileFlag h ++ AddTimeoutFlag h)) ++
  (of_helper <$> AddCommonFlagsForAWS h).

(** The object [cmd.ClusterConfig] points to after lines 30-39, read
    through its pointers: [WithOIDC] is [api.Enabled()], and
    [serviceAccount] is the last element of [ServiceAccounts]. *)
Definition cfg_at (h : Helpers) (v : Vars) : ClusterConfig :=
  let cfg := NewClusterConfig h in
  {| Metadata := hv_Metadata (helperView v);
     IAM := {| WithOIDC := Some true;
               ServiceAccounts := ServiceAccounts (IAM cfg) ++ [serviceAccount v];
               OIDCThumbprint := OIDCThumbprint (IAM cfg);
               iam_rest := iam_rest (IAM cfg) |};
     cfg_rest := cfg_rest cfg |}.

Definition cmd_at (h : Helpers) (nameArg : string) (v : Vars) : Cmd :=
  {| cmd_ClusterConfig := cfg_at h v; NameArg := nameArg;
     Plan := hv_Plan (helperView v); cmd_rest := hv_rest (helperView v) |}.

(** The command that setup builds. *)
Record Command (R : Type) : Type := {
  Use : string;
  Short : string;
  Flags : list Flag;
  vars : Vars;
  RunE : Vars → CobraCommand → list string → R
}.
Arguments Use {R} _.
Arguments Short {R} _.
Arguments Flags {R} _.
Arguments vars {R} _.
Arguments RunE {R} _ _ _ _.

(** [createIAMServiceAccountCmdWithRunFunc]. [cmd] is the command as
    received; the run function also gets the package-level variable
    [oIDCThumbprint], which it can read. *)
Definition createIAMServiceAccountCmdWithRunFunc {R} (h : Helpers) (cmd : Cmd)
    (runFunc : string → Cmd → bool → bool → R) : Command R :=
  let roleOnly0 := false (* api.Disabled() *) in
  let v0 := {| sa_Name := EmptyString; sa_Namespace := EmptyString;
               sa_AttachPolicyARNs := []; sa_AttachRoleARN := EmptyString;
               sa_RoleName := EmptyString; sa_Tags := ∅;
               roleOnly := roleOnly0;
               overrideExistingServiceAccounts := false;
               oIDCThumbprint := EmptyString;
               helperView := {| hv_Metadata := Metadata (NewClusterConfig h);
                                hv_Plan := Plan cmd; hv_rest := cmd_rest cmd |} |} in
  {| Use := "iamserviceaccount";
     Short := "Create an iamserviceaccount - AWS IAM role bound to a Kubernetes service account";
     Flags := flagSet h;
     vars := defineAll (flagSet h) v0;
     RunE := λ v _ args,
       runFunc (oIDCThumbprint v) (cmd_at h (GetNameArg h args) v)
               (overrideExistingServiceAccounts v) (roleOnly v) |}.

(** Running the command: unknown flags and ill-typed values are parse
    errors ([None]), otherwise [RunE] is called. *)
Definition execute {R} (c : Command R) (cobra : CobraCommand)
    (supplied : gmap string FlagValue) (args : list string) : option R :=
  if decide (dom supplied ⊆ list_to_set (flag_name <$> Flags c)) then
    v ← parseFlags (Flags c) supplied (vars c);
    Some (RunE c v cobra args)
  else None.

(** [createIAMServiceAccountCmd]. *)
Definition createIAMServiceAccountCmd (C : Collaborators) (h : Helpers) (cmd : Cmd)
  : Command (World → World * list Event * error) :=
  createIAMServiceAccountCmdWithRunFunc h cmd
    (λ thumb cmd overrideExistingServiceAccounts roleOnly,
       doCreateIAMServiceAccount C thumb cmd overrideExistingServiceAccounts roleOnly).

(** The values a command line gives to the flags of lines 53-63. *)
Definition given_string (supplied : gmap string FlagValue) (name : string) (d : string)
  : string :=
  match supplied !! name with Some (VString s) => s | _ => d end.
Definition given_bool (supplied : gmap string FlagValue) (name : string) (d : bool) : bool :=
  match supplied !! name with Some (VBool b) => b | _ => d end.
Definition given_slice (supplied : gmap string FlagValue) (name : string) (d : list string)
  : list string :=
  match supplied !! name with Some (VStringSlice l) => l | _ => d end.
Definition given_map (supplied : gmap string FlagValue) (name : string)
    (d : gmap string string) : gmap string string :=
  match supplied !! name with Some (VStringToString m) => m | _ => d end.

(** The cells bound on lines 53-63 after parsing [supplied] from [v]. *)
Definition bound (supplied : gmap string FlagValue) (v : Vars) : Vars :=
  {| sa_Name := given_string supplied "name" (sa_Name v);
     sa_Namespace := given_string supplied "namespace" (sa_Namespace v);
     sa_AttachPolicyARNs := given_slice supplied "attach-policy-arn" (sa_AttachPolicyARNs v);
     sa_AttachRoleARN := given_string supplied "attach-role-arn" (sa_AttachRoleARN v);
     sa_RoleName := given_string supplied "role-name" (sa_RoleName v);
     sa_Tags := given_map supplied "tags" (sa_Tags v);
     roleOnly := given_bool supplied "role-only" (roleOnly v);
     overrideExistingServiceAccounts :=
       given_bool supplied "override-existing-serviceaccounts"
         (overrideExistingServiceAccounts v);
     oIDCThumbprint := given_string supplied "oidc-thumbprint" (oIDCThumbprint v);
     helperView := helperView v |}.

(** Replace the part of the cells that helpers can reach. *)
Definition with_helperView (hv : HelperView) (v : Vars) : Vars :=
  {| sa_Name := sa_Name v; sa_Namespace := sa_Namespace v;
     sa_AttachPolicyARNs := sa_AttachPolicyARNs v; sa_AttachRoleARN := sa_AttachRoleARN v;
     sa_RoleName := sa_RoleName v; sa_Tags := sa_Tags v; roleOnly := roleOnly v;
     overrideExistingServiceAccounts := overrideExistingServiceAccounts v;
     oIDCThumbprint := oIDCThumbprint v; helperView := hv |}.

(** The cells once all flags are defined: they hold the defaults. *)
Definition default_vars (hv : HelperView) : Vars :=
  {| sa_Name := EmptyString; sa_Namespace := "default"; sa_AttachPolicyARNs := [];
     sa_AttachRoleARN := EmptyString; sa_RoleName := EmptyString; sa_Tags := ∅;
     roleOnly := false; overrideExistingServiceAccounts := false;
     oIDCThumbprint := EmptyString; helperView := hv |}.

(** The default with which lines 53-63 define the flag [name]. *)
Definition default_of (name : string) : option FlagValue :=
  flag_default <$> List.find (λ f, String.eqb (flag_name f) name) ownFlags.

End Setup.

Arguments Use {_ R} _.
Arguments Short {_ R} _.
Arguments Flags {_ R} _.
Arguments vars {_ R} _.
Arguments RunE {_ R} _ _ _ _.

(** ** The Existence Filter *)

Module ExistenceFilter.

(** Modelled from the spec: the code of [FilterMatching] and
    [SetExcludeExistingFilter] (package filter) is not part of this file, which
    only calls them; the definitions of this module follow sections 3 and 4.1
    of the specification. *)

(** Modelled from the spec: ExistenceState, the (namespace, name) pairs
    present as Kubernetes service accounts and the pairs backed by an IAM
    role stack. *)
Record ExistenceState : Type := {
  kubernetesAccounts : gset (string * string);
  stackBacked : gset (string * string)
}.

(** Modelled from the spec: the empty ExistenceState. *)
Definition emptyState : ExistenceState :=
  {| kubernetesAccounts := ∅; stackBacked := ∅ |}.

(** Modelled from the spec: the (namespace, name) pair of a desired spec. *)
Definition key (s : ClusterIAMServiceAccount) : string * string := (Namespace s, Name s).

(** Modelled from the spec: a matching (namespace, name) exists in [existing]. *)
Definition present (existing : ExistenceState) (k : string * string) : bool :=
  bool_decide (k ∈ kubernetesAccounts existing ∪ stackBacked existing).

(** Modelled from the spec: ReconciliationDecision. *)
Inductive ReconciliationDecision : Type := Create | SkipExisting | OverrideExisting.

(** Modelled from the spec: the three rules of section 4.1. *)
Definition decision (existing : ExistenceState) (override : bool)
    (s : ClusterIAMServiceAccount) : ReconciliationDecision :=
  if present existing (key s)
  then (if override then OverrideExisting else SkipExisting)
  else Create.

(** Modelled from the spec: Create and Override-Existing include the spec,
    Skip-Existing excludes it. *)
Definition included (d : ReconciliationDecision) : bool :=
  match d with SkipExisting => false | _ => true end.

(** Modelled from the spec: [computeTargets], the targets in input order. *)
Definition computeTargets (desired : list ClusterIAMServiceAccount)
    (existing : ExistenceState) (override : bool) : list ClusterIAMServiceAccount :=
  filter (λ s, included (decision existing override s) = true) desired.

End ExistenceFilter.

(** ** Observations on traces *)

Section Observations.
Context `{Externals}.

(** The steps of section 4.3, and the dump of the configuration that the
    code performs between the mode warning and the delegation. *)
Inductive Phase : Type :=
| load_phase
| cluster_context_phase
| precondition_gate_phase
| existence_state_query_phase
| filter_phase
| mode_warning_phase
| config_dump_phase
| delegation_phase.

Definition phase_index (p : Phase) : nat :=
  match p with
  | load_phase => 1
  | cluster_context_phase => 2
  | precondition_gate_phase => 3
  | existence_state_query_phase => 4
  | filter_phase => 5
  | mode_warning_phase => 6
  | config_dump_phase => 7
  | delegation_phase => 8
  end.

Definition phase_of (ev : Event) : Phase :=
  match ev with
  | Load_called _ => load_phase
  | NewProviderForExistingCluster_called _ _ | CanOperate_called _ _ _
  | NewStdClientSet_called _ => cluster_context_phase
  | NewOpenIDConnectManager_called _ _ | CheckProviderExists_called _ _ _ =>
      precondition_gate_phase
  | Warning_logged format _ =>
      if String.eqb format msg_noOIDCProvider then precondition_gate_phase
      else mode_warning_phase
  | NewStackManager_called | SetExcludeExistingFilter_called _ _ _ _ =>
      existence_state_query_phase
  | FilterMatching_called _ _ | LogInfo_called _ => filter_phase
  | LogObj_called _ _ => config_dump_phase
  | CreateIAMServiceAccount_called _ _ _ _ => delegation_phase
  end.

(** The position of each call and warning in the text of the function. *)
Definition rank (ev : Event) : nat :=
  match ev with
  | Load_called _ => 0
  | NewProviderForExistingCluster_called _ _ => 1
  | CanOperate_called _ _ _ => 2
  | NewStdClientSet_called _ => 3
  | NewOpenIDConnectManager_called _ _ => 4
  | CheckProviderExists_called _ _ _ => 5
  | Warning_logged format _ =>
      if String.eqb format msg_noOIDCProvider then 6
      else if String.eqb format msg_overrideNoEffect then 12
      else 11
  | NewStackManager_called => 7
  | SetExcludeExistingFilter_called _ _ _ _ => 8
  | FilterMatching_called _ _ => 9
  | LogInfo_called _ => 10
  | LogObj_called _ _ => 13
  | CreateIAMServiceAccount_called _ _ _ _ => 14
  end.

(** The positions of the steps of a run in which no step fails, through
    the delegation; the warning that override has no effect is there when
    both flags are set. *)
Definition expected_ranks (overrideExisting roleOnly : bool) : list nat :=
  [0; 1; 2; 3; 4; 5; 7; 8; 9; 10; 11] ++
  (if roleOnly && overrideExisting then [12] else []) ++ [13; 14].

(** The positions of the steps of a run that the gate aborts. *)
Definition gate_abort_ranks : list nat := [0; 1; 2; 3; 4; 5; 6].

Definition is_warning (ev : Event) : bool :=
  match ev with Warning_logged _ _ => true | _ => false end.

(** The error value a step handed back (nil for a step without one). *)
Definition returned_error (ev : Event) : error :=
  match ev with
  | Load_called err | NewProviderForExistingCluster_called _ err
  | CanOperate_called _ _ err | NewStdClientSet_called err
  | NewOpenIDConnectManager_called _ err | CheckProviderExists_called _ _ err
  | SetExcludeExistingFilter_called _ _ _ err | LogObj_called _ err
  | CreateIAMServiceAccount_called _ _ _ err => err
  | _ => None
  end.

(** The test the code applies to a step's result: [Some e] when the
    function returns [e] because of this step, [None] when it goes on. *)
Definition returns_at (ev : Event) : option error :=
  match ev with
  | Load_called (Some e) | NewProviderForExistingCluster_called _ (Some e)
  | NewStdClientSet_called (Some e) | NewOpenIDConnectManager_called _ (Some e)
  | CheckProviderExists_called _ _ (Some e)
  | SetExcludeExistingFilter_called _ _ _ (Some e) | LogObj_called _ (Some e) =>
      Some (Some e)
  | CanOperate_called _ false err => Some err
  | CheckProviderExists_called _ false None => Some (Some err_noOIDCProvider)
  | CreateIAMServiceAccount_called _ _ _ err => Some err
  | _ => None
  end.

(** The context a call was given, if it takes one. *)
Definition context_of (ev : Event) : option Context :=
  match ev with
  | NewProviderForExistingCluster_called ctx _ | NewOpenIDConnectManager_called ctx _
  | CheckProviderExists_called ctx _ _ | SetExcludeExistingFilter_called ctx _ _ _ =>
      Some ctx
  | _ => None
  end.


(** Steps that query the existence state, filter, or provision. *)
Definition after_gate (ev : Event) : bool :=
  match ev with
  | NewStackManager_called | SetExcludeExistingFilter_called _ _ _ _
  | FilterMatching_called _ _ | LogInfo_called _ | LogObj_called _ _
  | CreateIAMServiceAccount_called _ _ _ _ => true
  | Warning_logged format _ => negb (String.eqb format msg_noOIDCProvider)
  | _ => false
  end.

Definition reached_filter (ev : Event) : bool :=
  match ev with LogInfo_called _ => true | _ => false end.

(** The specification's sentences on error propagation, operability and
    cancellation, as stated there; the orchestrator is compared with them
    below. *)

(** Every step that hands back an error ends the run with that error. *)
Definition spec_every_returned_error_aborts (r : World * list Event * error) : Prop :=
  ∀ pre ev post e,
    trace_of r = pre ++ ev :: post →
    returned_error ev = Some e →
    result_of r = Some e ∧ Forall (λ x, is_warning x = true) post.

(** A cluster that is not operable makes the run return a non-nil error. *)
Definition spec_inoperable_returns_error (r : World * list Event * error) : Prop :=
  ∀ cfg err, CanOperate_called cfg false err ∈ trace_of r → is_Some (result_of r).

(** The caller's cancellation signal reaches every call that takes a
    context. *)
Definition spec_contexts_from_caller (caller : Context) (r : World * list Event * error)
  : Prop :=
  Forall (λ ctx, derives_from ctx caller = true) (omap context_of (trace_of r)).

End Observations.

(** ** Modes *)

Inductive Mode : Type := role_only | override_existing | default_mode.

(** The priority table of the specification, section 4.3 step 6:
    role-only > override > default. *)
Definition spec_selectMode (roleOnly override : bool) : Mode :=
  match roleOnly, override with
  | true, _ => role_only
  | false, true => override_existing
  | false, false => default_mode
  end.

(** The mode a warning announces. *)
Definition announced_mode `{Externals} (ev : Event) : option Mode :=
  match ev with
  | Warning_logged format _ =>
      if String.eqb format msg_roleOnly then Some role_only
      else if String.eqb format msg_override then Some override_existing
      else if String.eqb format msg_default then Some default_mode
      else None
  | _ => None
  end.

Definition is_overrideNoEffect `{Externals} (ev : Event) : bool :=
  match ev with
  | Warning_logged format _ => String.eqb format msg_overrideNoEffect
  | _ => false
  end.

(** ** A concrete setting: counting collaborators *)

Module Example.

(** The world counts the calls of the collaborators that query or change
    the cluster after the gate. *)
#[export] Instance externals : Externals := {|
  ClusterMetaRest := unit; ClusterIAMRest := unit; ClusterConfigRest := unit;
  CmdRest := unit; World := nat; IAMServiceAccountFilter := unit;
  ClusterProvider := unit; ClientSet := unit; OpenIDConnectManager := unit;
  StackManager := unit |}.

Definition account (ns name : string) : ClusterIAMServiceAccount :=
  {| Name := name; Namespace := ns; AttachPolicyARNs := []; AttachRoleARN := EmptyString;
     RoleName := EmptyString; RoleOnly := Some false; Tags := ∅ |}.

Definition cfg : ClusterConfig :=
  {| Metadata := {| meta_Name := "c1"; meta_Region := "eu-west-1"; meta_rest := tt |};
     IAM := {| WithOIDC := Some true; ServiceAccounts := [account "default" "a"];
               OIDCThumbprint := None; iam_rest := tt |};
     cfg_rest := tt |}.

Definition cmd : Cmd :=
  {| cmd_ClusterConfig := cfg; NameArg := EmptyString; Plan := true; cmd_rest := tt |}.

(** Collaborators that all succeed, except that the operability check
    answers [canOperate] and the provider check [providerExists]. *)
Definition collaborators (canOperate providerExists : bool * error) : Collaborators :=
  {| NewIAMServiceAccountFilter := tt;
     Load := λ cmd f w, ((None, cmd, f), w);
     NewProviderForExistingCluster := λ _ _ w, ((tt, None), w);
     CanOperate := λ _ _ w, (canOperate, w);
     NewStdClientSet := λ _ _ w, ((tt, None), w);
     NewOpenIDConnectManager := λ _ _ _ w, ((tt, None), w);
     CheckProviderExists := λ _ _ w, (providerExists, w);
     NewStackManager := λ _ _ w, (tt, w);
     SetExcludeExistingFilter := λ f _ _ _ _ _ w, ((None, f), S w);
     FilterMatching := λ _ sas w, (sas, w);
     LogInfo := λ _ _ w, (tt, w);
     LogObj := λ _ w, (None, w);
     CreateIAMServiceAccount := λ _ _ _ _ _ _ w, (None, S w) |}.

Definition helpers : Helpers :=
  {| NewClusterConfig :=
       {| Metadata := {| meta_Name := EmptyString; meta_Region := EmptyString; meta_rest := tt |};
          IAM := {| WithOIDC := Some false; ServiceAccounts := [];
                    OIDCThumbprint := None; iam_rest := tt |};
          cfg_rest := tt |};
     GetNameArg := λ args, List.hd EmptyString args;
     AddClusterFlag := [];
     AddIAMServiceAccountFilterFlags := [];
     AddApproveFlag := [];
     AddRegionFlag := [];
     AddConfigFileFlag := [];
     AddTimeoutFlag := [];
     AddCommonFlagsForAWS := [] |}.

End Example.

(** ** The exits of [doCreateIAMServiceAccount] *)

Section Exits.
Context `{Externals}.

(** The warnings of lines 129-138 as a list. *)
Definition mode_events (overrideExisting roleOnly : bool) : list Event :=
  if roleOnly then
    Warning_logged msg_roleOnly [] ::
    (if overrideExisting then [Warning_logged msg_overrideNoEffect []] else [])
  else if overrideExisting then [Warning_logged msg_override []]
  else [Warning_logged msg_default []].

Definition before_gate (cfg : ClusterConfig) (err0 : error) : list Event :=
  [ Load_called None; NewProviderForExistingCluster_called Background None;
    CanOperate_called cfg true err0; NewStdClientSet_called None;
    NewOpenIDConnectManager_called Background None ].

Definition before_filter (cfg : ClusterConfig) (err0 : error) : list Event :=
  before_gate cfg err0 ++
  [ CheckProviderExists_called Background true None; NewStackManager_called ].

Definition before_dump (cfg : ClusterConfig) (err0 : error) (overrideExisting roleOnly : bool)
    (filtered : list ClusterIAMServiceAccount) : list Event :=
  before_filter cfg err0 ++
  [ SetExcludeExistingFilter_called Background (ServiceAccounts (IAM cfg)) overrideExisting None;
    FilterMatching_called (ServiceAccounts (IAM cfg)) filtered;
    LogInfo_called (ServiceAccounts (IAM cfg)) ] ++
  mode_events overrideExisting roleOnly.

(** [Exit cfg overrideExisting roleOnly tr e]: the function leaves through
    one of its [return] statements with trace [tr] and value [e], where
    [cfg] is the configuration after lines 82-87. *)
Inductive Exit (cfg : ClusterConfig) (overrideExisting roleOnly : bool)
  : list Event → error → Prop :=
| exit_Load e :
    Exit cfg overrideExisting roleOnly [Load_called (Some e)] (Some e)
| exit_NewProvider e :
    Exit cfg overrideExisting roleOnly
      [Load_called None; NewProviderForExistingCluster_called Background (Some e)] (Some e)
| exit_CanOperate err :
    Exit cfg overrideExisting roleOnly
      [Load_called None; NewProviderForExistingCluster_called Background None;
       CanOperate_called cfg false err] err
| exit_NewStdClientSet err0 e :
    Exit cfg overrideExisting roleOnly
      [Load_called None; NewProviderForExistingCluster_called Background None;
       CanOperate_called cfg true err0; NewStdClientSet_called (Some e)] (Some e)
| exit_NewOpenIDConnectManager err0 e :
    Exit cfg overrideExisting roleOnly
      [Load_called None; NewProviderForExistingCluster_called Background None;
       CanOperate_called cfg true err0; NewStdClientSet_called None;
       NewOpenIDConnectManager_called Background (Some e)] (Some e)
| exit_CheckProviderExists err0 providerExists e :
    Exit cfg overrideExisting roleOnly
      (before_gate cfg err0 ++
       [CheckProviderExists_called Background providerExists (Some e)]) (Some e)
| exit_gate err0 args :
    Exit cfg overrideExisting roleOnly
      (before_gate cfg err0 ++
       [CheckProviderExists_called Background false None;
        Warning_logged msg_noOIDCProvider args]) (Some err_noOIDCProvider)
| exit_SetExcludeExistingFilter err0 e :
    Exit cfg overrideExisting roleOnly
      (before_filter cfg err0 ++
       [SetExcludeExistingFilter_called Background (ServiceAccounts (IAM cfg))
          overrideExisting (Some e)]) (Some e)
| exit_LogObj err0 filtered e :
    Exit cfg overrideExisting roleOnly
      (before_dump cfg err0 overrideExisting roleOnly filtered ++
       [LogObj_called cfg (Some e)]) (Some e)
| exit_CreateIAMServiceAccount err0 filtered plan err :
    Exit cfg overrideExisting roleOnly
      (before_dump cfg err0 overrideExisting roleOnly filtered ++
       [LogObj_called cfg None;
        CreateIAMServiceAccount_called (meta_Name (Metadata cfg)) filtered plan err]) err.

(** The configuration that [Load] leaves in [cmd]. *)
Definition loaded_config (C : Collaborators) (cmd : Cmd) (w : World) : ClusterConfig :=
  cmd_ClusterConfig (Load C cmd (NewIAMServiceAccountFilter C) w).1.1.2.

End Exits.

(** ** What the calls of a run are given *)

Section DataFlowObservations.
Context `{Externals}.

(** The collaborator calls of a trace, without the warnings. *)
Definition calls_of (tr : list Event) : list Event :=
  filter (λ ev, is_warning ev = false) tr.

(** The override flag a call was given. *)
Definition override_given (ev : Event) : option bool :=
  match ev with
  | SetExcludeExistingFilter_called _ _ overrideExisting _ => Some overrideExisting
  | _ => None
  end.

End DataFlowObservations.

(** * Properties of the orchestrator *)

Section OrchestratorProperties.
Context `{Externals} (C : Collaborators).

#[local] Arguments logMode : simpl never.

Lemma logMode_run (overrideExisting roleOnly : bool) (w : World) :
  logMode overrideExisting roleOnly w = (w, mode_events overrideExisting roleOnly, Proceed tt).
Proof. by destruct overrideExisting, roleOnly. Qed.

(** Every run leaves through one of the exits. *)
Lemma doCreateIAMServiceAccount_exits
    (oIDCThumbprint : string) (cmd : Cmd) (overrideExisting roleOnly : bool) (w : World) :
  let r := doCreateIAMServiceAccount C oIDCThumbprint cmd overrideExisting roleOnly w in
  Exit (applyOIDCThumbprint oIDCThumbprint (loaded_config C cmd w))
       overrideExisting roleOnly (trace_of r) (result_of r).
Proof.
  unfold doCreateIAMServiceAccount, doCreateIAMServiceAccount_body, trace_of, result_of,
    loaded_config, mbind, Run_bind, mret, Run_ret, bind, ret, call, return_, Warning.
  destruct (Load _ _ _ _) as [[[[e|] cmd'] saFilter] w1]; simpl;
    [by constructor|].
  destruct (NewProviderForExistingCluster _ _ _ _) as [[ctl [e|]] w2]; simpl;
    [by constructor|].
  destruct (CanOperate _ _ _ _) as [[[|] err0] w3]; simpl;
    [|by constructor].
  destruct (NewStdClientSet _ _ _ _) as [[clientSet [e|]] w4]; simpl;
    [by constructor|].
  destruct (NewOpenIDConnectManager _ _ _ _ _) as [[oidc [e|]] w5]; simpl;
    [by constructor|].
  destruct (CheckProviderExists _ _ _ _) as [[providerExists [e|]] w6]; simpl;
    [by apply (exit_CheckProviderExists _ _ _ err0)|].
  destruct providerExists; simpl; [|by apply (exit_gate _ _ _ err0)].
  destruct (NewStackManager _ _ _ _) as [stackManager w7]; simpl.
  destruct (SetExcludeExistingFilter _ _ _ _ _ _ _ _) as [[[e|] saFilter'] w8]; simpl;
    [by apply (exit_SetExcludeExistingFilter _ _ _ err0)|].
  destruct (FilterMatching _ _ _ _) as [filtered w9]; simpl.
  destruct (LogInfo _ _ _ _) as [[] w10]; simpl.
  rewrite logMode_run; simpl.
  destruct (LogObj _ _ _) as [[e|] w11]; simpl;
    [by apply (exit_LogObj _ _ _ err0 filtered)|].
  destruct (CreateIAMServiceAccount _ _ _ _ _ _ _ _) as [err w12]; simpl.
  by apply (exit_CreateIAMServiceAccount _ _ _ err0 filtered).
Qed.

(** Case analysis on the exit of a run, with the flags made concrete. *)
Ltac by_exit oIDCThumbprint cmd overrideExisting roleOnly w :=
  let E := fresh "E" in
  pose proof (doCreateIAMServiceAccount_exits oIDCThumbprint cmd overrideExisting roleOnly w)
    as E;
  simpl in E;
  generalize dependent
    (trace_of (doCreateIAMServiceAccount C oIDCThumbprint cmd overrideExisting roleOnly w));
  generalize dependent
    (result_of (doCreateIAMServiceAccount C oIDCThumbprint cmd overrideExisting roleOnly w));
  intros res tr E; destruct E;
  unfold before_dump, before_filter, before_gate, mode_events;
  destruct overrideExisting, roleOnly; simpl.

(** C1. When the OIDC provider check reports the provider absent,
    [doCreateIAMServiceAccount] returns a non-nil error, and its trace holds
    no call of [SetExcludeExistingFilter], [FilterMatching] or
    [CreateIAMServiceAccount], nor any other step placed after the gate. *)
Theorem absent_provider_aborts_before_state_query
    (oIDCThumbprint : string) (cmd : Cmd) (overrideExisting roleOnly : bool) (w : World)
    (ctx : Context) (err : error) :
  CheckProviderExists_called ctx false err ∈
    trace_of (doCreateIAMServiceAccount C oIDCThumbprint cmd overrideExisting roleOnly w) →
  is_Some (result_of
             (doCreateIAMServiceAccount C oIDCThumbprint cmd overrideExisting roleOnly w)) ∧
  Forall (λ ev, after_gate ev = false)
    (trace_of (doCreateIAMServiceAccount C oIDCThumbprint cmd overrideExisting roleOnly w)).
Proof.
  by_exit oIDCThumbprint cmd overrideExisting roleOnly w; intros Hin;
    apply list_elem_of_In in Hin; simpl in Hin;
    try (exfalso; intuition discriminate);
    (split; [by eexists | by repeat constructor]).
Qed.

Ltac sorted_list :=
  simpl;
  repeat first
    [ apply SSorted_nil | apply SSorted_cons
    | apply List.Forall_nil | apply List.Forall_cons | lia ].

(** Enumerate the ways a concrete trace splits as [pre ++ ev :: post]. *)
Ltac split_trace pre tac :=
  repeat (destruct pre as [|? pre]; simplify_eq/=; try tac).

(** The ranks of a concrete trace are the start of the expected ones. *)
Ltac no_step_skipped :=
  first [ left; eexists; reflexivity | right; reflexivity ].

(** A concrete trace holds a step at which the function returns. *)
Ltac some_step_returns :=
  repeat match goal with b : bool |- _ => destruct b end;
  repeat first [ by apply List.Exists_cons_hd; eexists | apply List.Exists_cons_tl ].

(** C3 (as amended). The calls and warnings of a run occur in the order of
    the function text: load, cluster context and operability check, OIDC
    gate, existence-state query, filter, mode warning, configuration dump,
    delegation, each at most once and none skipped. A run goes on until a
    step at which the function returns: a step that fails by the test the
    code applies to it (a non-nil error; for the operability check
    [ok = false]; for the gate an absent provider), or the delegation. The
    function then returns that step's error value and no later step is
    executed: nothing follows the step in the trace, except the gate's
    warning after a provider check that answered absent. *)
Theorem steps_in_order_and_failure_aborts
    (oIDCThumbprint : string) (cmd : Cmd) (overrideExisting roleOnly : bool) (w : World) :
  StronglySorted lt
    (rank <$> trace_of
       (doCreateIAMServiceAccount C oIDCThumbprint cmd overrideExisting roleOnly w)) ∧
  StronglySorted le
    ((λ ev, phase_index (phase_of ev)) <$> trace_of
       (doCreateIAMServiceAccount C oIDCThumbprint cmd overrideExisting roleOnly w)) ∧
  (rank <$> trace_of
     (doCreateIAMServiceAccount C oIDCThumbprint cmd overrideExisting roleOnly w)
     `prefix_of` expected_ranks overrideExisting roleOnly ∨
   rank <$> trace_of
     (doCreateIAMServiceAccount C oIDCThumbprint cmd overrideExisting roleOnly w)
     = gate_abort_ranks) ∧
  Exists (λ ev, is_Some (returns_at ev))
    (trace_of (doCreateIAMServiceAccount C oIDCThumbprint cmd overrideExisting roleOnly w)) ∧
  ∀ pre ev post e,
    trace_of (doCreateIAMServiceAccount C oIDCThumbprint cmd overrideExisting roleOnly w)
      = pre ++ ev :: post →
    returns_at ev = Some e →
    result_of (doCreateIAMServiceAccount C oIDCThumbprint cmd overrideExisting roleOnly w)
      = e ∧
    Forall (λ x, is_warning x = true) post ∧
    (post = [] ∨
     ∃ ctx args,
       ev = CheckProviderExists_called ctx false None ∧
       post = [Warning_logged msg_noOIDCProvider args]).
Proof.
  by_exit oIDCThumbprint cmd overrideExisting roleOnly w;
    (split; [sorted_list | split; [sorted_list | split; [no_step_skipped | split;
      [some_step_returns |]]]]);
    intros pre ev post e' Htr Hret;
    split_trace pre
      ltac:(repeat case_match; simplify_eq;
            (split; [done | split; [by repeat constructor |
               first [by left | by right; eexists _, _]]])).
Qed.

(** C5 (as amended). When the operability check answers [ok = false], the
    function returns at once with the error value the check gave next to
    it: the check is the last entry of the trace, and the result is non-nil
    whenever that error value is. *)
Theorem inoperable_cluster_returns_check_error
    (oIDCThumbprint : string) (cmd : Cmd) (overrideExisting roleOnly : bool) (w : World)
    (cfg : ClusterConfig) (err : error) :
  CanOperate_called cfg false err ∈
    trace_of (doCreateIAMServiceAccount C oIDCThumbprint cmd overrideExisting roleOnly w) →
  result_of (doCreateIAMServiceAccount C oIDCThumbprint cmd overrideExisting roleOnly w)
    = err ∧
  last (trace_of (doCreateIAMServiceAccount C oIDCThumbprint cmd overrideExisting roleOnly w))
    = Some (CanOperate_called cfg false err) ∧
  (is_Some err →
   is_Some (result_of
              (doCreateIAMServiceAccount C oIDCThumbprint cmd overrideExisting roleOnly w))).
Proof.
  by_exit oIDCThumbprint cmd overrideExisting roleOnly w; intros Hin;
    apply list_elem_of_In in Hin; simpl in Hin;
    try (exfalso; intuition discriminate);
    destruct Hin as [Hin|[Hin|[Hin|[]]]]; try discriminate Hin;
    injection Hin as <- <-; done.
Qed.

(** Every context the function hands to a collaborator is the background
    context it creates itself. *)
Lemma contexts_are_background
    (oIDCThumbprint : string) (cmd : Cmd) (overrideExisting roleOnly : bool) (w : World) :
  Forall (eq Background)
    (omap context_of
       (trace_of (doCreateIAMServiceAccount C oIDCThumbprint cmd overrideExisting roleOnly w))).
Proof.
  by_exit oIDCThumbprint cmd overrideExisting roleOnly w; by repeat constructor.
Qed.

(** C4. The warnings of lines 129-138 announce exactly one mode, the one
    that the priority table role-only > override > default selects from the
    two flags, and they hold the warning that
    [--override-existing-serviceaccounts] has no effect exactly once when
    both flags are set (and not at all otherwise). The same holds of the
    whole run once it has reached this step; a run that returns earlier
    announces no mode. *)
Theorem exactly_one_mode_by_priority
    (oIDCThumbprint : string) (cmd : Cmd) (overrideExisting roleOnly : bool) (w : World) :
  omap announced_mode (logMode overrideExisting roleOnly w).1.2
    = [spec_selectMode roleOnly overrideExisting] ∧
  length (filter (λ ev, is_overrideNoEffect ev = true)
            (logMode overrideExisting roleOnly w).1.2)
    = (if roleOnly && overrideExisting then 1 else 0) ∧
  omap announced_mode
    (trace_of (doCreateIAMServiceAccount C oIDCThumbprint cmd overrideExisting roleOnly w))
    = (if existsb reached_filter
            (trace_of
               (doCreateIAMServiceAccount C oIDCThumbprint cmd overrideExisting roleOnly w))
       then [spec_selectMode roleOnly overrideExisting] else []) ∧
  length (filter (λ ev, is_overrideNoEffect ev = true)
            (trace_of
               (doCreateIAMServiceAccount C oIDCThumbprint cmd overrideExisting roleOnly w)))
    = (if existsb reached_filter
            (trace_of
               (doCreateIAMServiceAccount C oIDCThumbprint cmd overrideExisting roleOnly w))
          && roleOnly && overrideExisting
       then 1 else 0).
Proof.
  rewrite logMode_run.
  by_exit oIDCThumbprint cmd overrideExisting roleOnly w; by vm_compute.
Qed.


End OrchestratorProperties.

(** * Properties of command setup *)

Section SetupProperties.
Context `{Externals}.

Lemma parseFlags_app (fs1 fs2 : list Flag) (supplied : gmap string FlagValue) (v : Vars) :
  parseFlags (fs1 ++ fs2) supplied v
  = parseFlags fs1 supplied v ≫= parseFlags fs2 supplied.
Proof.
  revert v. induction fs1 as [|f fs1 IH]; intros v; simpl; [done|].
  destruct (supplied !! flag_name f) as [x|]; [|done].
  destruct (assign (flag_target f) x v) as [v'|]; simpl; [apply IH | done].
Qed.

Lemma assign_helper (set : FlagValue → HelperView → option HelperView)
    (x : FlagValue) (v v' : Vars) :
  assign (helper_field set) x v = Some v' → ∃ hv, v' = with_helperView hv v.
Proof.
  destruct v; simpl. destruct (set x _) as [hv|]; simpl; [|done].
  intros [= <-]. by exists hv.
Qed.

Lemma parseFlags_helpers (fs : list HelperFlag) (supplied : gmap string FlagValue)
    (v v' : Vars) :
  parseFlags (of_helper <$> fs) supplied v = Some v' → ∃ hv, v' = with_helperView hv v.
Proof.
  revert v. induction fs as [|f fs IH]; intros v; simpl.
  - intros [= <-]. exists (helperView v). by destruct v.
  - destruct (supplied !! hf_name f) as [x|]; [|apply IH].
    destruct (assign _ x v) as [v1|] eqn:Hv1; simpl; [|done].
    apply assign_helper in Hv1 as [hv1 ->]. intros [hv ->]%IH. by exists hv.
Qed.

Lemma defineAll_helpers (fs : list HelperFlag) (v : Vars) :
  ∃ hv, defineAll (of_helper <$> fs) v = with_helperView hv v.
Proof.
  revert v. induction fs as [|f fs IH]; intros v.
  - exists (helperView v). by destruct v.
  - change (defineAll (of_helper <$> f :: fs) v)
      with (defineAll (of_helper <$> fs) (define (of_helper f) v)).
    unfold define. simpl.
    destruct (assign _ _ v) as [v1|] eqn:Hv1; simpl; [|apply IH].
    apply assign_helper in Hv1 as [hv1 ->].
    destruct (IH (with_helperView hv1 v)) as [hv ->]. by exists hv.
Qed.

(** Parsing the flags of lines 53-63 stores what the command line gives. *)
Lemma parseFlags_ownFlags (supplied : gmap string FlagValue) (v v' : Vars) :
  parseFlags ownFlags supplied v = Some v' → v' = bound supplied v.
Proof.
  destruct v. unfold bound, given_string, given_bool, given_slice, given_map, ownFlags.
  simpl.
  repeat match goal with
         | |- context [supplied !! ?n] =>
             destruct (supplied !! n) as [[]|]; simpl; try (intros; discriminate)
         end.
  all: by intros [= <-].
Qed.

Lemma defineAll_app (fs1 fs2 : list Flag) (v : Vars) :
  defineAll (fs1 ++ fs2) v = defineAll fs2 (defineAll fs1 v).
Proof. apply foldl_app. Qed.

Lemma defineAll_ownFlags (v : Vars) :
  defineAll ownFlags v = default_vars (helperView v).
Proof. by destruct v. Qed.

Lemma vars_after_setup {R} (h : Helpers) (cmd : Cmd)
    (runFunc : string → Cmd → bool → bool → R) :
  ∃ hv, vars (createIAMServiceAccountCmdWithRunFunc h cmd runFunc) = default_vars hv.
Proof.
  unfold createIAMServiceAccountCmdWithRunFunc, flagSet. cbn [vars].
  rewrite !defineAll_app, defineAll_ownFlags.
  destruct (defineAll_helpers (AddClusterFlag h)
    {| sa_Name := EmptyString; sa_Namespace := EmptyString;
       sa_AttachPolicyARNs := []; sa_AttachRoleARN := EmptyString;
       sa_RoleName := EmptyString; sa_Tags := ∅; roleOnly := false;
       overrideExistingServiceAccounts := false;
       oIDCThumbprint := EmptyString;
       helperView := {| hv_Metadata := Metadata (NewClusterConfig h);
                        hv_Plan := Plan cmd; hv_rest := cmd_rest cmd |} |}) as [hv1 ->].
  simpl.
  destruct (defineAll_helpers
              (AddIAMServiceAccountFilterFlags h ++ AddApproveFlag h ++
               AddRegionFlag h ++ AddConfigFileFlag h ++ AddTimeoutFlag h)
              (default_vars hv1)) as [hv2 ->].
  destruct (defineAll_helpers (AddCommonFlagsForAWS h)
              (with_helperView hv2 (default_vars hv1))) as [hv3 ->].
  by exists hv3.
Qed.

Lemma parseFlags_flagSet (h : Helpers) (supplied : gmap string FlagValue) (v v' : Vars) :
  parseFlags (flagSet h) supplied v = Some v' →
  ∃ hv, v' = with_helperView hv (bound supplied v).
Proof.
  unfold flagSet. rewrite parseFlags_app.
  destruct (parseFlags (of_helper <$> AddClusterFlag h) supplied v) as [v1|] eqn:H1;
    cbn [mbind option_bind]; [|done].
  apply parseFlags_helpers in H1 as [hv1 ->]. rewrite parseFlags_app.
  destruct (parseFlags ownFlags supplied _) as [v2|] eqn:H2;
    cbn [mbind option_bind]; [|done].
  apply parseFlags_ownFlags in H2 as ->. rewrite parseFlags_app.
  destruct (parseFlags (of_helper <$> _) supplied _) as [v3|] eqn:H3;
    cbn [mbind option_bind]; [|done].
  apply parseFlags_helpers in H3 as [hv3 ->].
  intros [hv4 ->]%parseFlags_helpers. by exists hv4.
Qed.

(** Whenever the command runs, the run function is called on the cells
    that hold the defaults overwritten by the values supplied. *)
Lemma execute_calls_runFunc {R} (h : Helpers) (cmd : Cmd)
    (runFunc : string → Cmd → bool → bool → R) (cobra : CobraCommand)
    (supplied : gmap string FlagValue) (args : list string) (r : R) :
  execute (createIAMServiceAccountCmdWithRunFunc h cmd runFunc) cobra supplied args = Some r →
  ∃ hv, let v := bound supplied (default_vars hv) in
    r = runFunc (oIDCThumbprint v) (cmd_at h (GetNameArg h args) v)
          (overrideExistingServiceAccounts v) (roleOnly v).
Proof.
  unfold execute. case_decide; [|done].
  destruct (vars_after_setup h cmd runFunc) as [hv0 ->].
  destruct (parseFlags _ supplied _) as [v|] eqn:Hv; simpl; [|done].
  apply parseFlags_flagSet in Hv as [hv ->]. intros [= <-]. by exists hv.
Qed.

(** C8. Lines 53-63 define [--namespace] with default ["default"] and
    [--role-only] and [--override-existing-serviceaccounts] with default
    false; when the command line gives none of the three, the run function
    is called with override false and roleOnly false, and the account that
    setup appended has namespace ["default"] and a [RoleOnly] that points
    to false. *)
Theorem flag_defaults {R} (h : Helpers) (cmd : Cmd)
    (runFunc : string → Cmd → bool → bool → R) (cobra : CobraCommand)
    (supplied : gmap string FlagValue) (args : list string) (r : R) :
  supplied !! "namespace" = None →
  supplied !! "role-only" = None →
  supplied !! "override-existing-serviceaccounts" = None →
  execute (createIAMServiceAccountCmdWithRunFunc h cmd runFunc) cobra supplied args = Some r →
  default_of "namespace" = Some (VString "default") ∧
  default_of "role-only" = Some (VBool false) ∧
  default_of "override-existing-serviceaccounts" = Some (VBool false) ∧
  ownFlags ⊆ Flags (createIAMServiceAccountCmdWithRunFunc h cmd runFunc) ∧
  ∃ thumb c sa,
    r = runFunc thumb c false false ∧
    last (ServiceAccounts (IAM (cmd_ClusterConfig c))) = Some sa ∧
    Namespace sa = "default" ∧ RoleOnly sa = Some false.
Proof.
  intros Hns Hro Hov [hv ->]%execute_calls_runFunc.
  split_and!; try done.
  - unfold createIAMServiceAccountCmdWithRunFunc, flagSet. cbn [Flags].
    intros f Hf. rewrite !elem_of_app. auto.
  - cbn zeta. unfold bound at 3 4. cbn [overrideExistingServiceAccounts roleOnly].
    unfold given_bool. rewrite Hro, Hov.
    eexists _, _, _. split; [done|].
    unfold cmd_at, cfg_at. cbn [cmd_ClusterConfig IAM ServiceAccounts].
    rewrite last_snoc. split; [done|].
    unfold serviceAccount, bound, given_string, given_bool. simpl.
    by rewrite Hns, Hro.
Qed.

(** C10. For every command line that parses, the run function is called
    with a configuration in which [IAM.WithOIDC] is enabled and
    [IAM.ServiceAccounts] is the list of [NewClusterConfig] followed by
    exactly one account, whose fields hold the values of the flags bound to
    them. *)
Theorem setup_enables_OIDC_and_appends_account {R} (h : Helpers) (cmd : Cmd)
    (runFunc : string → Cmd → bool → bool → R) (cobra : CobraCommand)
    (supplied : gmap string FlagValue) (args : list string) (r : R) :
  execute (createIAMServiceAccountCmdWithRunFunc h cmd runFunc) cobra supplied args = Some r →
  ∃ thumb c overrideExisting roleOnly,
    r = runFunc thumb c overrideExisting roleOnly ∧
    WithOIDC (IAM (cmd_ClusterConfig c)) = Some true ∧
    ServiceAccounts (IAM (cmd_ClusterConfig c))
    = ServiceAccounts (IAM (NewClusterConfig h)) ++
      [ {| Name := given_string supplied "name" EmptyString;
           Namespace := given_string supplied "namespace" "default";
           AttachPolicyARNs := given_slice supplied "attach-policy-arn" [];
           AttachRoleARN := given_string supplied "attach-role-arn" EmptyString;
           RoleName := given_string supplied "role-name" EmptyString;
           RoleOnly := Some roleOnly;
           Tags := given_map supplied "tags" ∅ |} ] ∧
    roleOnly = given_bool supplied "role-only" false ∧
    overrideExisting = given_bool supplied "override-existing-serviceaccounts" false.
Proof.
  intros [hv ->]%execute_calls_runFunc. by eexists _, _, _, _.
Qed.

(** C6 (as amended). The run does not depend on the [*cobra.Command] that
    [RunE] receives, hence not on the caller's context: every context
    handed to provider construction, the construction of the OIDC manager,
    the provider check and the existence-state query is the background
    context that [doCreateIAMServiceAccount] creates itself. The delegation
    to [CreateIAMServiceAccount] takes no context. *)
Theorem context_is_fresh_background (C : Collaborators) (h : Helpers) (cmd : Cmd)
    (cobra cobra' : CobraCommand) (supplied : gmap string FlagValue) (args : list string)
    (w : World) :
  execute (createIAMServiceAccountCmd C h cmd) cobra supplied args
  = execute (createIAMServiceAccountCmd C h cmd) cobra' supplied args ∧
  match execute (createIAMServiceAccountCmd C h cmd) cobra supplied args with
  | Some run => Forall (eq Background) (omap context_of (trace_of (run w)))
  | None => True
  end.
Proof.
  split; [done|].
  unfold execute. case_decide; [|done].
  destruct (parseFlags _ _ _) as [v|]; [|done]. apply contexts_are_background.
Qed.

End SetupProperties.

(** * Properties of the Existence Filter *)

Section FilterProperties.
Import ExistenceFilter.

Lemma included_decision (existing : ExistenceState) (override : bool)
    (s : ClusterIAMServiceAccount) :
  included (decision existing override s) = true ↔
  key s ∉ kubernetesAccounts existing ∪ stackBacked existing ∨ override = true.
Proof.
  unfold decision, present. case_bool_decide as Hin; destruct override; simpl; naive_solver.
Qed.

(** C2. The Existence Filter puts a desired account in its output if and
    only if its (namespace, name) pair is absent from the ExistenceState or
    override is set; the output keeps the input order, and with an empty
    ExistenceState it is the whole input. *)
Theorem computeTargets_includes_iff_absent_or_override
    (desired : list ClusterIAMServiceAccount) (existing : ExistenceState) (override : bool)
    (s : ClusterIAMServiceAccount) :
  (s ∈ computeTargets desired existing override ↔
   s ∈ desired ∧
   (key s ∉ kubernetesAccounts existing ∪ stackBacked existing ∨ override = true)) ∧
  computeTargets desired existing override `sublist_of` desired ∧
  computeTargets desired emptyState override = desired.
Proof.
  unfold computeTargets. split_and!.
  - rewrite list_elem_of_filter, included_decision. tauto.
  - apply sublist_filter.
  - induction desired as [|a l IH]; [done|].
    rewrite filter_cons_True, IH; [done|].
    apply included_decision. left. set_solver.
Qed.

End FilterProperties.

(** * Data flow of a run *)

Section DataFlow.
Context `{Externals} (C : Collaborators).

#[local] Arguments logMode : simpl never.

(** Follow a run through its collaborator calls, one case per answer. *)
Ltac run_chain :=
  unfold doCreateIAMServiceAccount, doCreateIAMServiceAccount_body, trace_of, result_of,
    loaded_config, mbind, Run_bind, mret, Run_ret, bind, ret, call, return_,
    Warning;
  destruct (Load _ _ _ _) as [[[[?|] ?] ?] ?]; simpl;
  try (destruct (NewProviderForExistingCluster _ _ _ _) as [[? [?|]] ?]; simpl);
  try (destruct (CanOperate _ _ _ _) as [[[|] ?] ?]; simpl);
  try (destruct (NewStdClientSet _ _ _ _) as [[? [?|]] ?]; simpl);
  try (destruct (NewOpenIDConnectManager _ _ _ _ _) as [[? [?|]] ?]; simpl);
  try (destruct (CheckProviderExists _ _ _ _) as [[[|] [?|]] ?]; simpl);
  try (destruct (NewStackManager _ _ _ _) as [? ?]; simpl);
  try (destruct (SetExcludeExistingFilter _ _ _ _ _ _ _ _) as [[[?|] ?] ?]; simpl);
  try (destruct (FilterMatching _ _ _ _) as [? ?]; simpl);
  try (destruct (LogInfo _ _ _ _) as [[] ?]; simpl);
  rewrite ?logMode_run; simpl;
  try (destruct (LogObj _ _ _) as [[?|] ?]; simpl);
  try (destruct (CreateIAMServiceAccount _ _ _ _ _ _ _ _) as [? ?]; simpl).

Lemma applyOIDCThumbprint_keeps (oIDCThumbprint : string) (cfg : ClusterConfig) :
  Metadata (applyOIDCThumbprint oIDCThumbprint cfg) = Metadata cfg ∧
  ServiceAccounts (IAM (applyOIDCThumbprint oIDCThumbprint cfg)) = ServiceAccounts (IAM cfg).
Proof. unfold applyOIDCThumbprint. by destruct (decide (oIDCThumbprint ≠ EmptyString)). Qed.

Ltac find_in := apply list_elem_of_In; simpl; repeat first [left; reflexivity | right].

Ltac in_trace Hin :=
  apply list_elem_of_In in Hin; simpl in Hin;
  repeat (destruct Hin as [Hin|Hin]; [try discriminate Hin|]); try (by destruct Hin).

(** X1. The [roleOnly] argument influences nothing but the warnings: with
    it set or not, a run makes the same collaborator calls with the same
    arguments, leaves the same world and returns the same value. *)
Theorem roleOnly_only_changes_warnings
    (oIDCThumbprint : string) (cmd : Cmd) (overrideExisting : bool) (w : World) :
  (doCreateIAMServiceAccount C oIDCThumbprint cmd overrideExisting true w).1.1
  = (doCreateIAMServiceAccount C oIDCThumbprint cmd overrideExisting false w).1.1 ∧
  result_of (doCreateIAMServiceAccount C oIDCThumbprint cmd overrideExisting true w)
  = result_of (doCreateIAMServiceAccount C oIDCThumbprint cmd overrideExisting false w) ∧
  calls_of (trace_of (doCreateIAMServiceAccount C oIDCThumbprint cmd overrideExisting true w))
  = calls_of
      (trace_of (doCreateIAMServiceAccount C oIDCThumbprint cmd overrideExisting false w)).
Proof.
  run_chain; destruct overrideExisting; by vm_compute.
Qed.


(** X2. [CreateIAMServiceAccount] is called only in a run in which the
    load returned nil, the operability check answered ok, the provider check
    answered that the provider exists, the existence-state query returned nil
    and the dump of the configuration returned nil. *)
Theorem delegation_only_after_all_checks
    (oIDCThumbprint : string) (cmd : Cmd) (overrideExisting roleOnly : bool) (w : World)
    (clusterName : string) (sas : list ClusterIAMServiceAccount) (plan : bool) (err : error) :
  CreateIAMServiceAccount_called clusterName sas plan err ∈
    trace_of (doCreateIAMServiceAccount C oIDCThumbprint cmd overrideExisting roleOnly w) →
  Load_called None ∈
    trace_of (doCreateIAMServiceAccount C oIDCThumbprint cmd overrideExisting roleOnly w) ∧
  (∃ err0,
     CanOperate_called (applyOIDCThumbprint oIDCThumbprint (loaded_config C cmd w)) true err0 ∈
       trace_of (doCreateIAMServiceAccount C oIDCThumbprint cmd overrideExisting roleOnly w)) ∧
  CheckProviderExists_called Background true None ∈
    trace_of (doCreateIAMServiceAccount C oIDCThumbprint cmd overrideExisting roleOnly w) ∧
  SetExcludeExistingFilter_called Background
      (ServiceAccounts (IAM (loaded_config C cmd w))) overrideExisting None ∈
    trace_of (doCreateIAMServiceAccount C oIDCThumbprint cmd overrideExisting roleOnly w) ∧
  LogObj_called (applyOIDCThumbprint oIDCThumbprint (loaded_config C cmd w)) None ∈
    trace_of (doCreateIAMServiceAccount C oIDCThumbprint cmd overrideExisting roleOnly w).
Proof.
  destruct overrideExisting, roleOnly; run_chain; intros Hin; in_trace Hin;
    simplify_eq;
    rewrite ?(proj2 (applyOIDCThumbprint_keeps _ _));
    (split_and!; [find_in | eexists; find_in | find_in | find_in | find_in]).
Qed.

(** X4. [SetExcludeExistingFilter] is always given the override flag as
    the function received it, also when [roleOnly] is set and the run warns
    that the flag has no effect. *)
Theorem override_flag_reaches_state_query
    (oIDCThumbprint : string) (cmd : Cmd) (overrideExisting roleOnly : bool) (w : World) :
  Forall (eq overrideExisting)
    (omap override_given
       (trace_of (doCreateIAMServiceAccount C oIDCThumbprint cmd overrideExisting roleOnly w))).
Proof.
  destruct overrideExisting, roleOnly; run_chain; by repeat constructor.
Qed.

(** X5. The warning with the remediation hint is logged only after the
    provider check answered absent; it carries two arguments, it is the
    last entry of the trace, and the function returns the fixed error of
    the gate. *)
Theorem gate_hint_only_after_absent_provider
    (oIDCThumbprint : string) (cmd : Cmd) (overrideExisting roleOnly : bool) (w : World)
    (args : list string) :
  Warning_logged msg_noOIDCProvider args ∈
    trace_of (doCreateIAMServiceAccount C oIDCThumbprint cmd overrideExisting roleOnly w) →
  length args = 2 ∧
  CheckProviderExists_called Background false None ∈
    trace_of (doCreateIAMServiceAccount C oIDCThumbprint cmd overrideExisting roleOnly w) ∧
  last (trace_of (doCreateIAMServiceAccount C oIDCThumbprint cmd overrideExisting roleOnly w))
  = Some (Warning_logged msg_noOIDCProvider args) ∧
  result_of (doCreateIAMServiceAccount C oIDCThumbprint cmd overrideExisting roleOnly w)
  = Some err_noOIDCProvider.
Proof.
  destruct overrideExisting, roleOnly; run_chain; intros Hin; in_trace Hin;
    simplify_eq; (split_and!; [done | find_in | done..]).
Qed.

(** X6. A run returns nil only if its last step is a delegation that
    returned nil, or an operability check that answered [ok = false] with a
    nil error. *)
Theorem nil_result_means_delegated_or_inoperable
    (oIDCThumbprint : string) (cmd : Cmd) (overrideExisting roleOnly : bool) (w : World) :
  result_of (doCreateIAMServiceAccount C oIDCThumbprint cmd overrideExisting roleOnly w)
  = None →
  (∃ clusterName sas plan,
     last (trace_of
             (doCreateIAMServiceAccount C oIDCThumbprint cmd overrideExisting roleOnly w))
     = Some (CreateIAMServiceAccount_called clusterName sas plan None)) ∨
  (∃ cfg,
     last (trace_of
             (doCreateIAMServiceAccount C oIDCThumbprint cmd overrideExisting roleOnly w))
     = Some (CanOperate_called cfg false None)).
Proof.
  destruct overrideExisting, roleOnly; run_chain; intros Hres; simplify_eq;
    first [ by left; eexists _, _, _ | by right; eexists ].
Qed.

(** X7. The function makes up no error besides the one of the gate: a
    non-nil result is the error value that the last step of the run handed
    back, or it is the gate's error after a provider check that answered
    absent. *)
Theorem errors_are_passed_through_unchanged
    (oIDCThumbprint : string) (cmd : Cmd) (overrideExisting roleOnly : bool) (w : World)
    (e : string) :
  result_of (doCreateIAMServiceAccount C oIDCThumbprint cmd overrideExisting roleOnly w)
  = Some e →
  (∃ ev,
     last (trace_of
             (doCreateIAMServiceAccount C oIDCThumbprint cmd overrideExisting roleOnly w))
     = Some ev ∧
     returned_error ev = Some e) ∨
  (e = err_noOIDCProvider ∧
   CheckProviderExists_called Background false None ∈
     trace_of (doCreateIAMServiceAccount C oIDCThumbprint cmd overrideExisting roleOnly w)).
Proof.
  destruct overrideExisting, roleOnly; run_chain; intros Hres; simplify_eq;
    first [ by left; eexists | right; split; [reflexivity | find_in] ].
Qed.

(** X8. Once the existence-state query has returned nil, the run always
    calls [FilterMatching] and [LogInfo], logs the warning of the selected
    mode and calls [LogObj]. If [LogObj] fails, the run ends there with its
    error; otherwise it ends with [CreateIAMServiceAccount], called on the
    list that [FilterMatching] returned, and returns its error value. *)
Theorem passed_query_reaches_dump_and_delegation
    (oIDCThumbprint : string) (cmd : Cmd) (overrideExisting roleOnly : bool) (w : World)
    (ctx : Context) (sas : list ClusterIAMServiceAccount) (ov : bool) :
  SetExcludeExistingFilter_called ctx sas ov None ∈
    trace_of (doCreateIAMServiceAccount C oIDCThumbprint cmd overrideExisting roleOnly w) →
  ∃ given filtered given' cfg dumpErr,
    FilterMatching_called given filtered ∈
      trace_of (doCreateIAMServiceAccount C oIDCThumbprint cmd overrideExisting roleOnly w) ∧
    LogInfo_called given' ∈
      trace_of (doCreateIAMServiceAccount C oIDCThumbprint cmd overrideExisting roleOnly w) ∧
    omap announced_mode
      (trace_of (doCreateIAMServiceAccount C oIDCThumbprint cmd overrideExisting roleOnly w))
    = [spec_selectMode roleOnly overrideExisting] ∧
    LogObj_called cfg dumpErr ∈
      trace_of (doCreateIAMServiceAccount C oIDCThumbprint cmd overrideExisting roleOnly w) ∧
    match dumpErr with
    | Some e =>
        last (trace_of
                (doCreateIAMServiceAccount C oIDCThumbprint cmd overrideExisting roleOnly w))
        = Some (LogObj_called cfg (Some e)) ∧
        result_of (doCreateIAMServiceAccount C oIDCThumbprint cmd overrideExisting roleOnly w)
        = Some e
    | None =>
        ∃ clusterName plan err,
          last (trace_of
                  (doCreateIAMServiceAccount C oIDCThumbprint cmd overrideExisting roleOnly w))
          = Some (CreateIAMServiceAccount_called clusterName filtered plan err) ∧
          result_of
            (doCreateIAMServiceAccount C oIDCThumbprint cmd overrideExisting roleOnly w)
          = err
    end.
Proof.
  destruct overrideExisting, roleOnly; run_chain; intros Hin; in_trace Hin;
    simplify_eq; eexists _, _, _, _, _;
    (split_and!; [find_in | find_in | reflexivity | find_in |]);
    first [ by split | by eexists _, _, _ ].
Qed.

End DataFlow.

Section CommandComposition.
Context `{Externals}.

(** X10. Whenever the command of [createIAMServiceAccountCmd] runs, it runs
    [doCreateIAMServiceAccount] with the values of [--oidc-thumbprint],
    [--override-existing-serviceaccounts] and [--role-only] (their defaults
    when not given), in this order, on a command whose [NameArg] is
    [GetNameArg args]. *)
Theorem command_runs_orchestrator_on_flag_values (C : Collaborators) (h : Helpers)
    (cmd : Cmd) (cobra : CobraCommand) (supplied : gmap string FlagValue)
    (args : list string) (run : World → World * list Event * error) :
  execute (createIAMServiceAccountCmd C h cmd) cobra supplied args = Some run →
  ∃ c,
    NameArg c = GetNameArg h args ∧
    run = doCreateIAMServiceAccount C
            (given_string supplied "oidc-thumbprint" EmptyString) c
            (given_bool supplied "override-existing-serviceaccounts" false)
            (given_bool supplied "role-only" false).
Proof.
  intros [hv ->]%execute_calls_runFunc. eexists. split; [|reflexivity]. reflexivity.
Qed.

(** X11. Command setup overwrites the [ClusterConfig] and, when run, the
    [NameArg] of the command it receives: two commands that differ only in
    these give the same runs. *)
Theorem setup_discards_incoming_config {R} (h : Helpers) (cmd cmd' : Cmd)
    (runFunc : string → Cmd → bool → bool → R) (cobra : CobraCommand)
    (supplied : gmap string FlagValue) (args : list string) :
  Plan cmd = Plan cmd' →
  cmd_rest cmd = cmd_rest cmd' →
  execute (createIAMServiceAccountCmdWithRunFunc h cmd runFunc) cobra supplied args
  = execute (createIAMServiceAccountCmdWithRunFunc h cmd' runFunc) cobra supplied args.
Proof.
  intros HP HR. unfold execute, createIAMServiceAccountCmdWithRunFunc.
  cbn [Flags vars RunE]. by rewrite HP, HR.
Qed.

End CommandComposition.

(** * Concrete runs *)

#[local] Existing Instance Example.externals.

(** C1, at a run whose provider check answers absent. *)
Lemma absent_provider_witness :
  is_Some (result_of
    (doCreateIAMServiceAccount (Example.collaborators (true, None) (false, None))
       EmptyString Example.cmd false false 0)) ∧
  Forall (λ ev, after_gate ev = false)
    (trace_of
       (doCreateIAMServiceAccount (Example.collaborators (true, None) (false, None))
          EmptyString Example.cmd false false 0)).
Proof.
  apply (absent_provider_aborts_before_state_query
           (Example.collaborators (true, None) (false, None))
           EmptyString Example.cmd false false 0 Background None).
  apply list_elem_of_In. vm_compute. tauto.
Defined.

(** C3 as stated fails: the operability check answers [ok = true] next to
    an error; the run goes on to the delegation and returns nil. *)
Lemma operability_error_swallowed :
  ¬ spec_every_returned_error_aborts
      (doCreateIAMServiceAccount
         (Example.collaborators (true, Some "status unknown") (true, None))
         EmptyString Example.cmd false false 0).
Proof.
  intros Hspec.
  destruct (Hspec [Load_called None; NewProviderForExistingCluster_called Background None]
              (CanOperate_called Example.cfg true (Some "status unknown"))
              [NewStdClientSet_called None; NewOpenIDConnectManager_called Background None;
               CheckProviderExists_called Background true None; NewStackManager_called;
               SetExcludeExistingFilter_called Background
                 [Example.account "default" "a"] false None;
               FilterMatching_called [Example.account "default" "a"]
                 [Example.account "default" "a"];
               LogInfo_called [Example.account "default" "a"];
               Warning_logged msg_default [];
               LogObj_called Example.cfg None;
               CreateIAMServiceAccount_called "c1" [Example.account "default" "a"] true None]
              "status unknown") as [Hres _]; [reflexivity | reflexivity |].
  vm_compute in Hres. discriminate Hres.
Qed.

(** C3 as amended, at a run whose operability check fails. *)
Lemma failing_step_witness :
  result_of
    (doCreateIAMServiceAccount
       (Example.collaborators (false, Some "cluster is being deleted") (true, None))
       EmptyString Example.cmd false false 0)
  = Some "cluster is being deleted" ∧
  Forall (λ x, is_warning x = true) ([] : list Event) ∧
  (([] : list Event) = [] ∨
   ∃ ctx args,
     CanOperate_called Example.cfg false (Some "cluster is being deleted")
     = CheckProviderExists_called ctx false None ∧
     ([] : list Event) = [Warning_logged msg_noOIDCProvider args]).
Proof.
  apply (proj2 (proj2 (proj2 (proj2 (steps_in_order_and_failure_aborts
           (Example.collaborators (false, Some "cluster is being deleted") (true, None))
           EmptyString Example.cmd false false 0))))
           [Load_called None; NewProviderForExistingCluster_called Background None]
           (CanOperate_called Example.cfg false (Some "cluster is being deleted")) []);
    reflexivity.
Defined.

(** C5 as stated fails: the operability check answers [ok = false] with a
    nil error, and the run returns nil. *)
Lemma inoperable_without_error_returns_nil :
  ¬ spec_inoperable_returns_error
      (doCreateIAMServiceAccount (Example.collaborators (false, None) (true, None))
         EmptyString Example.cmd false false 0).
Proof.
  intros Hspec. destruct (Hspec Example.cfg None) as [e He].
  - apply list_elem_of_In. vm_compute. tauto.
  - vm_compute in He. discriminate He.
Qed.

(** C5 as amended, at a run whose operability check gives an error. *)
Lemma inoperable_cluster_witness :
  result_of
    (doCreateIAMServiceAccount
       (Example.collaborators (false, Some "cluster is being deleted") (true, None))
       EmptyString Example.cmd false false 0)
  = Some "cluster is being deleted" ∧
  last (trace_of
    (doCreateIAMServiceAccount
       (Example.collaborators (false, Some "cluster is being deleted") (true, None))
       EmptyString Example.cmd false false 0))
  = Some (CanOperate_called Example.cfg false (Some "cluster is being deleted")) ∧
  (is_Some (Some "cluster is being deleted" : error) →
   is_Some (result_of
    (doCreateIAMServiceAccount
       (Example.collaborators (false, Some "cluster is being deleted") (true, None))
       EmptyString Example.cmd false false 0))).
Proof.
  apply (inoperable_cluster_returns_check_error
           (Example.collaborators (false, Some "cluster is being deleted") (true, None))
           EmptyString Example.cmd false false 0 Example.cfg
           (Some "cluster is being deleted")).
  apply list_elem_of_In. vm_compute. tauto.
Defined.

(** C6 as stated fails: the caller's context carries a deadline; the
    calls of the run get the background context, which does not derive
    from it. *)
Lemma caller_context_not_used :
  match execute
          (createIAMServiceAccountCmd (Example.collaborators (true, None) (true, None))
             Example.helpers Example.cmd)
          {| cobra_Context := WithDeadline Background 30 |} ∅ [] with
  | Some run => ¬ spec_contexts_from_caller (WithDeadline Background 30) (run 0)
  | None => False
  end.
Proof.
  vm_compute. intros Hspec. inversion Hspec as [|? ? Hhd _]. discriminate Hhd.
Qed.

(** C8, at a command line that gives only [--name]. *)
Lemma flag_defaults_witness :
  match execute (createIAMServiceAccountCmdWithRunFunc Example.helpers Example.cmd
                   (λ thumb c o r, (thumb, c, o, r)))
          {| cobra_Context := Background |} {["name" := VString "a"]} [] with
  | Some r =>
      default_of "namespace" = Some (VString "default") ∧
      default_of "role-only" = Some (VBool false) ∧
      default_of "override-existing-serviceaccounts" = Some (VBool false) ∧
      ownFlags ⊆ Flags (createIAMServiceAccountCmdWithRunFunc Example.helpers Example.cmd
                          (λ thumb c o r, (thumb, c, o, r))) ∧
      ∃ thumb c sa,
        r = (thumb, c, false, false) ∧
        last (ServiceAccounts (IAM (cmd_ClusterConfig c))) = Some sa ∧
        Namespace sa = "default" ∧ RoleOnly sa = Some false
  | None => False
  end.
Proof.
  destruct (execute _ _ _ _) as [r|] eqn:Hex.
  - exact (flag_defaults Example.helpers Example.cmd (λ thumb c o r, (thumb, c, o, r))
             {| cobra_Context := Background |} {["name" := VString "a"]} [] r
             eq_refl eq_refl eq_refl Hex).
  - vm_compute in Hex. discriminate Hex.
Defined.

(** C10, at a command line that gives [--name] and [--role-only]. *)
Lemma setup_witness :
  match execute (createIAMServiceAccountCmdWithRunFunc Example.helpers Example.cmd
                   (λ thumb c o r, (thumb, c, o, r)))
          {| cobra_Context := Background |}
          {["name" := VString "a"; "role-only" := VBool true]} ["a"] with
  | Some r =>
      ∃ thumb c overrideExisting roleOnly,
        r = (thumb, c, overrideExisting, roleOnly) ∧
        WithOIDC (IAM (cmd_ClusterConfig c)) = Some true ∧
        ServiceAccounts (IAM (cmd_ClusterConfig c))
        = [] ++ [ {| Name := "a"; Namespace := "default"; AttachPolicyARNs := [];
                     AttachRoleARN := EmptyString; RoleName := EmptyString;
                     RoleOnly := Some roleOnly; Tags := ∅ |} ] ∧
        roleOnly = true ∧ overrideExisting = false
  | None => False
  end.
Proof.
  destruct (execute _ _ _ _) as [r|] eqn:Hex.
  - exact (setup_enables_OIDC_and_appends_account Example.helpers Example.cmd
             (λ thumb c o r, (thumb, c, o, r)) {| cobra_Context := Background |}
             {["name" := VString "a"; "role-only" := VBool true]} ["a"] r Hex).
  - vm_compute in Hex. discriminate Hex.
Defined.

(** X2, at a run in which every collaborator succeeds. *)
Lemma delegation_checks_witness :
  Load_called None ∈
    trace_of (doCreateIAMServiceAccount (Example.collaborators (true, None) (true, None))
                EmptyString Example.cmd false false 0) ∧
  (∃ err0,
     CanOperate_called
       (applyOIDCThumbprint EmptyString
          (loaded_config (Example.collaborators (true, None) (true, None)) Example.cmd 0))
       true err0 ∈
       trace_of (doCreateIAMServiceAccount (Example.collaborators (true, None) (true, None))
                   EmptyString Example.cmd false false 0)) ∧
  CheckProviderExists_called Background true None ∈
    trace_of (doCreateIAMServiceAccount (Example.collaborators (true, None) (true, None))
                EmptyString Example.cmd false false 0) ∧
  SetExcludeExistingFilter_called Background
      (ServiceAccounts
         (IAM (loaded_config (Example.collaborators (true, None) (true, None)) Example.cmd 0)))
      false None ∈
    trace_of (doCreateIAMServiceAccount (Example.collaborators (true, None) (true, None))
                EmptyString Example.cmd false false 0) ∧
  LogObj_called
      (applyOIDCThumbprint EmptyString
         (loaded_config (Example.collaborators (true, None) (true, None)) Example.cmd 0))
      None ∈
    trace_of (doCreateIAMServiceAccount (Example.collaborators (true, None) (true, None))
                EmptyString Example.cmd false false 0).
Proof.
  apply (delegation_only_after_all_checks (Example.collaborators (true, None) (true, None))
           EmptyString Example.cmd false false 0
           "c1" [Example.account "default" "a"] true None).
  apply list_elem_of_In. vm_compute. tauto.
Defined.

(** X5, at a run whose provider check answers absent. *)
Lemma gate_hint_witness :
  length ["eu-west-1"; "c1"] = 2 ∧
  CheckProviderExists_called Background false None ∈
    trace_of (doCreateIAMServiceAccount (Example.collaborators (true, None) (false, None))
                EmptyString Example.cmd true false 0) ∧
  last (trace_of (doCreateIAMServiceAccount (Example.collaborators (true, None) (false, None))
                    EmptyString Example.cmd true false 0))
  = Some (Warning_logged msg_noOIDCProvider ["eu-west-1"; "c1"]) ∧
  result_of (doCreateIAMServiceAccount (Example.collaborators (true, None) (false, None))
               EmptyString Example.cmd true false 0)
  = Some err_noOIDCProvider.
Proof.
  apply (gate_hint_only_after_absent_provider
           (Example.collaborators (true, None) (false, None))
           EmptyString Example.cmd true false 0 ["eu-west-1"; "c1"]).
  apply list_elem_of_In. vm_compute. tauto.
Defined.

(** X6, at a role-only run in which every collaborator succeeds. *)
Lemma nil_result_witness :
  (∃ clusterName sas plan,
     last (trace_of
             (doCreateIAMServiceAccount (Example.collaborators (true, None) (true, None))
                EmptyString Example.cmd false true 0))
     = Some (CreateIAMServiceAccount_called clusterName sas plan None)) ∨
  (∃ cfg,
     last (trace_of
             (doCreateIAMServiceAccount (Example.collaborators (true, None) (true, None))
                EmptyString Example.cmd false true 0))
     = Some (CanOperate_called cfg false None)).
Proof.
  apply (nil_result_means_delegated_or_inoperable
           (Example.collaborators (true, None) (true, None))
           EmptyString Example.cmd false true 0).
  reflexivity.
Defined.

(** X7, at a run whose operability check gives an error. *)
Lemma passed_through_witness :
  (∃ ev,
     last (trace_of
             (doCreateIAMServiceAccount
                (Example.collaborators (false, Some "cluster is being deleted") (true, None))
                EmptyString Example.cmd false false 0))
     = Some ev ∧
     returned_error ev = Some "cluster is being deleted") ∨
  ("cluster is being deleted" = err_noOIDCProvider ∧
   CheckProviderExists_called Background false None ∈
     trace_of (doCreateIAMServiceAccount
                 (Example.collaborators (false, Some "cluster is being deleted") (true, None))
                 EmptyString Example.cmd false false 0)).
Proof.
  apply (errors_are_passed_through_unchanged
           (Example.collaborators (false, Some "cluster is being deleted") (true, None))
           EmptyString Example.cmd false false 0 "cluster is being deleted").
  reflexivity.
Defined.

(** X8, at a run with a thumbprint and both flags set. *)
Lemma passed_query_witness :
  ∃ given filtered given' cfg dumpErr,
    FilterMatching_called given filtered ∈
      trace_of (doCreateIAMServiceAccount (Example.collaborators (true, None) (true, None))
                  "9e99a48a9960b14926bb7f3b02e22da2b0ab7280" Example.cmd true true 0) ∧
    LogInfo_called given' ∈
      trace_of (doCreateIAMServiceAccount (Example.collaborators (true, None) (true, None))
                  "9e99a48a9960b14926bb7f3b02e22da2b0ab7280" Example.cmd true true 0) ∧
    omap announced_mode
      (trace_of (doCreateIAMServiceAccount (Example.collaborators (true, None) (true, None))
                  "9e99a48a9960b14926bb7f3b02e22da2b0ab7280" Example.cmd true true 0))
    = [spec_selectMode true true] ∧
    LogObj_called cfg dumpErr ∈
      trace_of (doCreateIAMServiceAccount (Example.collaborators (true, None) (true, None))
                  "9e99a48a9960b14926bb7f3b02e22da2b0ab7280" Example.cmd true true 0) ∧
    match dumpErr with
    | Some e =>
        last (trace_of (doCreateIAMServiceAccount (Example.collaborators (true, None) (true, None))
                  "9e99a48a9960b14926bb7f3b02e22da2b0ab7280" Example.cmd true true 0))
        = Some (LogObj_called cfg (Some e)) ∧
        result_of (doCreateIAMServiceAccount (Example.collaborators (true, None) (true, None))
                  "9e99a48a9960b14926bb7f3b02e22da2b0ab7280" Example.cmd true true 0)
        = Some e
    | None =>
        ∃ clusterName plan err,
          last (trace_of (doCreateIAMServiceAccount (Example.collaborators (true, None) (true, None))
                  "9e99a48a9960b14926bb7f3b02e22da2b0ab7280" Example.cmd true true 0))
          = Some (CreateIAMServiceAccount_called clusterName filtered plan err) ∧
          result_of (doCreateIAMServiceAccount (Example.collaborators (true, None) (true, None))
                  "9e99a48a9960b14926bb7f3b02e22da2b0ab7280" Example.cmd true true 0)
          = err
    end.
Proof.
  apply (passed_query_reaches_dump_and_delegation
           (Example.collaborators (true, None) (true, None))
           "9e99a48a9960b14926bb7f3b02e22da2b0ab7280" Example.cmd true true 0
           Background [Example.account "default" "a"] true).
  apply list_elem_of_In. vm_compute. tauto.
Defined.

(** X10, at a command line that gives [--role-only] and [--oidc-thumbprint]. *)
Lemma command_composition_witness :
  match execute
          (createIAMServiceAccountCmd (Example.collaborators (true, None) (true, None))
             Example.helpers Example.cmd)
          {| cobra_Context := Background |}
          {["role-only" := VBool true; "oidc-thumbprint" := VString "abc"]} ["sa1"] with
  | Some run =>
      ∃ c,
        NameArg c = "sa1" ∧
        run = doCreateIAMServiceAccount (Example.collaborators (true, None) (true, None))
                "abc" c false true
  | None => False
  end.
Proof.
  destruct (execute _ _ _ _) as [run|] eqn:Hex.
  - exact (command_runs_orchestrator_on_flag_values
             (Example.collaborators (true, None) (true, None)) Example.helpers Example.cmd
             {| cobra_Context := Background |}
             {["role-only" := VBool true; "oidc-thumbprint" := VString "abc"]} ["sa1"]
             run Hex).
  - vm_compute in Hex. discriminate Hex.
Defined.

(** X11, at two commands with different configurations and name arguments. *)
Lemma setup_discards_witness :
  execute (createIAMServiceAccountCmdWithRunFunc Example.helpers Example.cmd
             (λ thumb c o r, (thumb, c, o, r)))
    {| cobra_Context := Background |} {["name" := VString "a"]} []
  = execute (createIAMServiceAccountCmdWithRunFunc Example.helpers
               {| cmd_ClusterConfig := NewClusterConfig Example.helpers;
                  NameArg := "left over"; Plan := true; cmd_rest := tt |}
               (λ thumb c o r, (thumb, c, o, r)))
      {| cobra_Context := Background |} {["name" := VString "a"]} [].
Proof.
  apply (setup_discards_incoming_config Example.helpers Example.cmd
           {| cmd_ClusterConfig := NewClusterConfig Example.helpers;
              NameArg := "left over"; Plan := true; cmd_rest := tt |}
           (λ thumb c o r, (thumb, c, o, r)) {| cobra_Context := Background |}
           {["name" := VString "a"]} []); reflexivity.
Defined.
